(** * my-first-transaction/transaction.py: the transfer flow of [main]

    [main] is a straight-line async script over the Aptos SDK
    ([RestClient], [FaucetClient], [Account]).  Every SDK method it
    awaits is modelled as a typed [call] answered by a handler over an
    abstract world (the devnet node, the faucet, the key generator and
    the clock).  The body of [main] runs in a state and exception monad
    whose state holds the world, the trace of what the script did (calls
    made, exceptions raised, local names bound) and the frame of its
    local variables, as Python's [f_locals] dictionary.  An exception
    leaves [main] with the frame it had when it was raised: the script
    has no [try] anywhere. *)

From Stdlib Require Import String Ascii ZArith List Lia.
From stdpp Require Import base gmap strings list.
Import ListNotations.
Open Scope Z_scope.
Set Warnings "-register-all".

(** ** Values *)

(** JSON as returned by the REST client ([response.json()]). *)
Inductive json : Type :=
| JNull
| JBool (b : bool)
| JNum (n : Z)
| JStr (s : string)
| JArr (xs : list json)
| JObj (kvs : list (string * json)).

(** [AccountAddress]: 32 bytes, as a number. *)
Definition AccountAddress := Z.

(** [Account]: an address derived from a private key. *)
Record Account := mkAccount {
  account_address : AccountAddress;
  private_key : Z
}.

(** [Account.address()] *)
Definition address (a : Account) : AccountAddress := account_address a.

(** The serializer passed to a [TransactionArgument]; the canonical
    binary encoder itself is an external primitive. *)
Inductive Serializer := SerStruct | SerU64.

Inductive ArgValue :=
| AVAddress (a : AccountAddress)
| AVInt (n : Z).

(** [TransactionArgument(value, encoder)] *)
Record TransactionArgument := mkTransactionArgument {
  arg_value : ArgValue;
  arg_encoder : Serializer
}.

(** [EntryFunction]: module, function, type arguments, arguments. *)
Record EntryFunction := mkEntryFunction {
  ef_module : string;
  ef_function : string;
  ef_ty_args : list string;
  ef_args : list TransactionArgument
}.

(** [EntryFunction.natural(module, function, ty_args, args)] *)
Definition EntryFunction_natural (module function : string)
  (ty_args : list string) (args : list TransactionArgument) : EntryFunction :=
  mkEntryFunction module function ty_args args.

(** [TransactionPayload(entry_function)] *)
Inductive TransactionPayload := PayloadEntryFunction (ef : EntryFunction).

Record RawTransaction := mkRawTransaction {
  sender : AccountAddress;
  sequence_number : Z;
  payload : TransactionPayload;
  max_gas_amount : Z;
  gas_unit_price : Z;
  expiration_timestamps_secs : Z;
  chain_id : Z
}.

Record SignedTransaction := mkSignedTransaction {
  transaction : RawTransaction;
  authenticator : Z
}.

(** Exceptions that can leave [main]: those of the collaborators (the
    error kinds of the design) and the builtin ones raised by indexing
    JSON and by [int]. *)
Inductive exc : Type :=
| ApiError (status : Z) (message : string)
| FundingError
| AccountNotFound
| StaleSequenceNumber
| ConfirmationTimeout
| TransactionNotFound
| KeyError (key : string)
| IndexError
| ValueError
| TypeError.

(** ** Python builtins used on JSON *)

Fixpoint assoc_get (kvs : list (string * json)) (k : string) : option json :=
  match kvs with
  | [] => None
  | (k', v) :: r => if String.eqb k k' then Some v else assoc_get r k
  end.

(** [d[k]] for a string key. *)
Definition getitem_key (d : json) (k : string) : exc + json :=
  match d with
  | JObj kvs => match assoc_get kvs k with Some v => inr v | None => inl (KeyError k) end
  | _ => inl TypeError
  end.

(** [xs[i]] for an integer index (negative indices count from the end). *)
Definition getitem_idx (d : json) (i : Z) : exc + json :=
  match d with
  | JArr xs =>
      let n := Z.of_nat (length xs) in
      let j := if i <? 0 then i + n else i in
      if (j <? 0) || (n <=? j) then inl IndexError
      else match nth_error xs (Z.to_nat j) with Some v => inr v | None => inl IndexError end
  | JStr s =>
      let n := Z.of_nat (String.length s) in
      let j := if i <? 0 then i + n else i in
      if (j <? 0) || (n <=? j) then inl IndexError
      else match String.get (Z.to_nat j) s with
           | Some c => inr (JStr (String c EmptyString))
           | None => inl IndexError
           end
  | JObj _ => inl (KeyError "0")
  | _ => inl TypeError
  end.

Definition is_py_space (c : ascii) : bool :=
  match nat_of_ascii c with
  | 9 | 10 | 11 | 12 | 13 | 32 => true
  | _ => false
  end%nat.

Definition digit_value (c : ascii) : option Z :=
  let n := nat_of_ascii c in
  if (48 <=? n)%nat && (n <=? 57)%nat then Some (Z.of_nat n - 48) else None.

Fixpoint drop_spaces (l : list ascii) : list ascii :=
  match l with
  | c :: r => if is_py_space c then drop_spaces r else l
  | [] => []
  end.

(** Decimal digits, single underscores allowed between digits;
    [last] is 0 at the start, 1 after a digit, 2 after an underscore. *)
Fixpoint parse_digits (l : list ascii) (acc : Z) (last : nat) : option Z :=
  match l with
  | [] => if Nat.eqb last 1 then Some acc else None
  | c :: r =>
      match digit_value c with
      | Some d => parse_digits r (acc * 10 + d) 1
      | None =>
          if Ascii.eqb c "_" && Nat.eqb last 1 then parse_digits r acc 2 else None
      end
  end.

(** [int(s)] on a string: surrounding whitespace, an optional sign, and
    base-10 digits. *)
Definition parse_int (s : string) : option Z :=
  let l := rev (drop_spaces (rev (drop_spaces (list_ascii_of_string s)))) in
  match l with
  | c :: r =>
      if Ascii.eqb c "-" then option_map Z.opp (parse_digits r 0 0)
      else if Ascii.eqb c "+" then parse_digits r 0 0
      else parse_digits l 0 0
  | [] => None
  end.

(** [int(x)] on a JSON value. *)
Definition py_int (j : json) : exc + Z :=
  match j with
  | JNum n => inr n
  | JBool b => inr (if b then 1 else 0)
  | JStr s => match parse_int s with Some n => inr n | None => inl ValueError end
  | _ => inl TypeError
  end.

(** ** The collaborators *)

(** Every awaited SDK method, and the two local effects (key generation,
    the clock), with the type of its result. *)
Inductive call : Type -> Type :=
| Generate : call Account                        (* Account.generate() *)
| TimeSecs : call Z                              (* int(time.time()) *)
| FundAccount : AccountAddress -> Z -> call string
| AccountBalance : AccountAddress -> call Z
| ChainId : call Z
| AccountInfo : AccountAddress -> call json      (* rest_client.account *)
| CreateBcsTransaction : Account -> TransactionPayload -> call RawTransaction
| SimulateTransaction : RawTransaction -> Account -> call json
| CreateBcsSignedTransaction : Account -> TransactionPayload -> Z -> call SignedTransaction
| SubmitBcsTransaction : SignedTransaction -> call string
| WaitForTransaction : string -> call unit
| TransactionByHash : string -> call json.

(** A call as it appears in the trace: the method and its arguments. *)
Inductive ev : Type :=
| EGenerate
| ETimeSecs
| EFund (a : AccountAddress) (amount : Z)
| EBalance (a : AccountAddress)
| EChainId
| EAccount (a : AccountAddress)
| ECreateBcs (acct : Account) (pl : TransactionPayload)
| ESimulate (tx : RawTransaction) (acct : Account)
| ESign (acct : Account) (pl : TransactionPayload) (seq : Z)
| ESubmit (stx : SignedTransaction)
| EWait (h : string)
| EByHash (h : string).

Definition label {R} (c : call R) : ev :=
  match c with
  | Generate => EGenerate
  | TimeSecs => ETimeSecs
  | FundAccount a n => EFund a n
  | AccountBalance a => EBalance a
  | ChainId => EChainId
  | AccountInfo a => EAccount a
  | CreateBcsTransaction acct pl => ECreateBcs acct pl
  | SimulateTransaction tx acct => ESimulate tx acct
  | CreateBcsSignedTransaction acct pl n => ESign acct pl n
  | SubmitBcsTransaction stx => ESubmit stx
  | WaitForTransaction h => EWait h
  | TransactionByHash h => EByHash h
  end.

(** Calls that read or change ledger state (the node and the faucet). *)
Definition is_ledger_call (e : ev) : bool :=
  match e with
  | EGenerate | ETimeSecs => false
  | _ => true
  end.

(** Python values held by the locals of [main]. *)
Inductive pyval : Type :=
| VRestClient (url : string)
| VFaucetClient (url : string) (node : string)
| VInt (n : Z)
| VStr (s : string)
| VJson (j : json)
| VAccount (a : Account)
| VEntryFunction (ef : EntryFunction)
| VRaw (tx : RawTransaction)
| VSigned (stx : SignedTransaction).

(** What the script did, in order. *)
Inductive step : Type :=
| SCall (e : ev)
| SRaise (x : exc)
| SBind (name : string) (v : pyval).

(** The SDK method a call invokes. *)
Definition ev_method (e : ev) : string :=
  match e with
  | EGenerate => "Account.generate"
  | ETimeSecs => "time.time"
  | EFund _ _ => "fund_account"
  | EBalance _ => "account_balance"
  | EChainId => "chain_id"
  | EAccount _ => "account"
  | ECreateBcs _ _ => "create_bcs_transaction"
  | ESimulate _ _ => "simulate_transaction"
  | ESign _ _ _ => "create_bcs_signed_transaction"
  | ESubmit _ => "submit_bcs_transaction"
  | EWait _ => "wait_for_transaction"
  | EByHash _ => "transaction_by_hash"
  end.

Definition is_call (m : string) (x : step) : bool :=
  match x with SCall e => String.eqb (ev_method e) m | _ => false end.

Definition is_bind (name : string) (x : step) : bool :=
  match x with SBind y _ => String.eqb name y | _ => false end.

Definition is_raise (x : step) : bool :=
  match x with SRaise _ => true | _ => false end.

(** The first step of a trace satisfying [p], and what follows it. *)
Fixpoint after (p : step -> bool) (tr : list step) : option (step * list step) :=
  match tr with
  | [] => None
  | x :: r => if p x then Some (x, r) else after p r
  end.

(** The calls of a trace, in order. *)
Fixpoint calls (tr : list step) : list ev :=
  match tr with
  | [] => []
  | SCall e :: r => e :: calls r
  | _ :: r => calls r
  end.

Definition count_calls (m : string) (tr : list step) : nat :=
  length (List.filter (is_call m) tr).

(** ** The flow monad

    A handler answers each call in a world, or raises.  State passing
    over the world, the trace and the frame; an exception carries the
    state it was raised in. *)

Section Flow.

Context {W : Type}.
Context (handle : forall R, call R -> W -> exc + (R * W)).

Record st := mkSt {
  world : W;
  trace : list step;
  locals : gmap string pyval
}.

Inductive outcome (A : Type) : Type :=
| Returned (a : A) (s : st)
| Raised (x : exc) (s : st).
Arguments Returned {A} a s.
Arguments Raised {A} x s.

Definition M (A : Type) : Type := st -> outcome A.

Definition ret {A} (a : A) : M A := fun s => Returned a s.

Definition bind {A B} (m : M A) (k : A -> M B) : M B :=
  fun s => match m s with
           | Returned a s' => k a s'
           | Raised x s' => Raised x s'
           end.

Definition record (e : step) (s : st) : st :=
  mkSt (world s) (trace s ++ [e]) (locals s).

(** [raise x] *)
Definition raise {A} (x : exc) : M A := fun s => Raised x (record (SRaise x) s).

(** [await client.method(args)] *)
Definition perform {R} (c : call R) : M R :=
  fun s =>
    let s1 := record (SCall (label c)) s in
    match handle R c (world s1) with
    | inl x => Raised x (record (SRaise x) s1)
    | inr (r, w') => Returned r (mkSt w' (trace s1) (locals s1))
    end.

(** A builtin that may raise. *)
Definition lift {A} (r : exc + A) : M A :=
  match r with inl x => raise x | inr a => ret a end.

(** [name = v] *)
Definition assign (name : string) (v : pyval) : M unit :=
  fun s => Returned tt (mkSt (world s) (trace s ++ [SBind name v]) (<[name := v]> (locals s))).

End Flow.

Arguments Returned {W A} a s.
Arguments Raised {W A} x s.

Notation "x <- m ;; k" := (bind m (fun x => k))
  (at level 100, m at next level, right associativity).
Notation "m ;; k" := (bind m (fun _ => k))
  (at level 100, right associativity).

(** ** [main] *)

Definition NODE_URL : string := "https://fullnode.devnet.aptoslabs.com/v1".
Definition FAUCET_URL : string := "https://faucet.devnet.aptoslabs.com".

Section Main.

Context {W : Type}.
Context (handle : forall R, call R -> W -> exc + (R * W)).

Local Abbreviation call_ := (perform handle).

(** Lines 16-138 of transaction.py; the [logging.info] lines only print
    and are left out. *)
Definition main : M unit :=
  assign "rest_client" (VRestClient NODE_URL) ;;
  assign "faucet_client" (VFaucetClient FAUCET_URL NODE_URL) ;;
  alice <- call_ Generate ;;
  assign "alice" (VAccount alice) ;;
  bob <- call_ Generate ;;
  assign "bob" (VAccount bob) ;;
  let alice_amount := 100000000 in
  assign "alice_amount" (VInt alice_amount) ;;
  let bob_amount := 0 in
  assign "bob_amount" (VInt bob_amount) ;;
  call_ (FundAccount (address alice) alice_amount) ;;
  alice_balance <- call_ (AccountBalance (address alice)) ;;
  assign "alice_balance" (VInt alice_balance) ;;
  bob_balance <- call_ (AccountBalance (address bob)) ;;
  assign "bob_balance" (VInt bob_balance) ;;
  let entry_function :=
    EntryFunction_natural "0x1::aptos_account" "transfer" []
      [mkTransactionArgument (AVAddress (address bob)) SerStruct;
       mkTransactionArgument (AVInt 1000) SerU64] in
  assign "entry_function" (VEntryFunction entry_function) ;;
  chain_id <- call_ ChainId ;;
  assign "chain_id" (VInt chain_id) ;;
  account_data <- call_ (AccountInfo (address alice)) ;;
  assign "account_data" (VJson account_data) ;;
  sn <- lift (getitem_key account_data "sequence_number") ;;
  sequence_number <- lift (py_int sn) ;;
  assign "sequence_number" (VInt sequence_number) ;;
  now <- call_ TimeSecs ;;
  let raw_transaction :=
    {| sender := address alice;
       sequence_number := sequence_number;
       payload := PayloadEntryFunction entry_function;
       max_gas_amount := 2000;
       gas_unit_price := 100;
       expiration_timestamps_secs := now + 600;
       chain_id := chain_id |} in
  assign "raw_transaction" (VRaw raw_transaction) ;;
  simulation_transaction <-
    call_ (CreateBcsTransaction alice (PayloadEntryFunction entry_function)) ;;
  assign "simulation_transaction" (VRaw simulation_transaction) ;;
  simulation_result <- call_ (SimulateTransaction simulation_transaction alice) ;;
  assign "simulation_result" (VJson simulation_result) ;;
  r0 <- lift (getitem_idx simulation_result 0) ;;
  g <- lift (getitem_key r0 "gas_used") ;;
  gas_used <- lift (py_int g) ;;
  assign "gas_used" (VInt gas_used) ;;
  r0 <- lift (getitem_idx simulation_result 0) ;;
  p <- lift (getitem_key r0 "gas_unit_price") ;;
  gas_unit_price <- lift (py_int p) ;;
  assign "gas_unit_price" (VInt gas_unit_price) ;;
  r0 <- lift (getitem_idx simulation_result 0) ;;
  success <- lift (getitem_key r0 "success") ;;
  assign "success" (VJson success) ;;
  signed_transaction <-
    call_ (CreateBcsSignedTransaction alice (PayloadEntryFunction entry_function)
             sequence_number) ;;
  assign "signed_transaction" (VSigned signed_transaction) ;;
  transaction_hash <- call_ (SubmitBcsTransaction signed_transaction) ;;
  assign "transaction_hash" (VStr transaction_hash) ;;
  call_ (WaitForTransaction transaction_hash) ;;
  transaction_details <- call_ (TransactionByHash transaction_hash) ;;
  assign "transaction_details" (VJson transaction_details) ;;
  success <- lift (getitem_key transaction_details "success") ;;
  assign "success" (VJson success) ;;
  vm_status <- lift (getitem_key transaction_details "vm_status") ;;
  assign "vm_status" (VJson vm_status) ;;
  gas_used <- lift (getitem_key transaction_details "gas_used") ;;
  assign "gas_used" (VJson gas_used) ;;
  alice_final_balance <- call_ (AccountBalance (address alice)) ;;
  assign "alice_final_balance" (VInt alice_final_balance) ;;
  bob_final_balance <- call_ (AccountBalance (address bob)) ;;
  assign "bob_final_balance" (VInt bob_final_balance) ;;
  ret tt.

End Main.

(** [asyncio.run(main())] from a world [w]: an empty trace and frame. *)
Definition run {W} (handle : forall R, call R -> W -> exc + (R * W)) (w : W)
  : outcome unit :=
  main handle (mkSt w [] ∅).

Definition final_state {W A} (o : @outcome W A) : @st W :=
  match o with Returned _ s => s | Raised _ s => s end.

(** The state [main] leaves with, returned or raised. *)
Definition final {W} (handle : forall R, call R -> W -> exc + (R * W)) (w : W) : @st W :=
  final_state (run handle w).

(** The same collaborators with the clock reading [t]. *)
Definition with_clock {W} (handle : forall R, call R -> W -> exc + (R * W)) (t : Z)
  : forall R, call R -> W -> exc + (R * W) :=
  fun R c w =>
    match c in call R return exc + (R * W) with
    | TimeSecs => inr (t, w)
    | c' => handle _ c' w
    end.

(** ** A devnet test double

    An executable stand-in for the node, the faucet and the SDK's
    transaction builder, used to run [main] on concrete inputs.  The
    builder uses the SDK's [ClientConfig] defaults: max gas 100_000,
    gas unit price 100, expiration ttl 600 seconds.  The handler's
    [zero_missing] chooses how a balance query treats an address that is
    not on chain:
    answer 0 (the [0x1::coin::balance] view) or raise [AccountNotFound]. *)

Fixpoint dec_aux (fuel : nat) (n : N) (acc : string) : string :=
  match fuel with
  | O => acc
  | S f =>
      let acc' := String (ascii_of_N (48 + N.modulo n 10)) acc in
      if (n <? 10)%N then acc' else dec_aux f (N.div n 10) acc'
  end.

(** [str(n)] *)
Definition dec_string (z : Z) : string :=
  String.append (if z <? 0 then "-" else "") (dec_aux 64 (Z.to_N (Z.abs z)) "").

Record devnet := mkDevnet {
  bals : gmap Z Z;
  seqs : gmap Z Z;
  next_key : Z;
  clock : Z;
  net_chain : Z;
  receipts : gmap string json
}.

Definition sdk_max_gas : Z := 100000.
Definition sdk_gas_unit_price : Z := 100.
Definition sdk_ttl : Z := 600.
Definition devnet_gas_used : Z := 7.

(** The largest address holding a balance (at least 1000). *)
Definition max_key (m : gmap Z Z) : Z := fold_right Z.max 1000 (map fst (map_to_list m)).

(** A key pair whose address is above every address on chain. *)
Definition fresh_addr (d : devnet) : AccountAddress := 1 + max_key (bals d) + Z.abs (next_key d).

Definition seq_of (d : devnet) (a : AccountAddress) : Z :=
  match seqs d !! a with Some n => n | None => 0 end.

Definition bal_of (d : devnet) (a : AccountAddress) : Z :=
  match bals d !! a with Some n => n | None => 0 end.

Definition with_bals (d : devnet) (b : gmap Z Z) (s : gmap Z Z) (r : gmap string json) : devnet :=
  mkDevnet b s (next_key d) (clock d) (net_chain d) r.

(** The SDK's [create_bcs_transaction] with the default config. *)
Definition sdk_raw (d : devnet) (a : Account) (pl : TransactionPayload) (sq : Z) : RawTransaction :=
  mkRawTransaction (address a) sq pl sdk_max_gas sdk_gas_unit_price (clock d + sdk_ttl) (net_chain d).

(** [0x1::aptos_account::transfer(to, amount)] if the payload is one. *)
Definition transfer_args (pl : TransactionPayload) : option (AccountAddress * Z) :=
  match pl with
  | PayloadEntryFunction ef =>
      if String.eqb (ef_module ef) "0x1::aptos_account" && String.eqb (ef_function ef) "transfer"
      then match ef_args ef with
           | [mkTransactionArgument (AVAddress to) _; mkTransactionArgument (AVInt n) _] => Some (to, n)
           | _ => None
           end
      else None
  end.

Definition sim_json (ok : bool) : json :=
  JArr [JObj [("gas_used", JStr (dec_string devnet_gas_used));
              ("gas_unit_price", JStr (dec_string sdk_gas_unit_price));
              ("success", JBool ok);
              ("vm_status", JStr (if ok then "Executed successfully" else "Move abort"))]].

Definition receipt_json (h : string) : json :=
  JObj [("hash", JStr h); ("success", JBool true);
        ("vm_status", JStr "Executed successfully");
        ("gas_used", JStr (dec_string devnet_gas_used))].

Definition affordable (d : devnet) (tx : RawTransaction) : bool :=
  match transfer_args (payload tx) with
  | Some (_, n) => (0 <=? n) && (n + devnet_gas_used * gas_unit_price tx <=? bal_of d (sender tx))
  | None => false
  end.

(** Submission executes at once: the sequence number must be the
    sender's next one, the sender pays amount plus gas used times unit
    price, the recipient is credited. *)
Definition devnet_submit (d : devnet) (stx : SignedTransaction) : exc + (string * devnet) :=
  let tx := transaction stx in
  let a := sender tx in
  if negb (sequence_number tx =? seq_of d a) then inl StaleSequenceNumber
  else match transfer_args (payload tx) with
       | Some (to, n) =>
           if affordable d tx then
             let h := String.append "0x" (String.append (dec_string a) (String.append "_" (dec_string (sequence_number tx)))) in
             let fee := devnet_gas_used * gas_unit_price tx in
             let b1 := <[a := bal_of d a - n - fee]> (bals d) in
             let d1 := with_bals d b1 (seqs d) (receipts d) in
             let b2 := <[to := bal_of d1 to + n]> b1 in
             inr (h, with_bals d b2 (<[a := seq_of d a + 1]> (seqs d)) (<[h := receipt_json h]> (receipts d)))
           else inl (ApiError 400 "INSUFFICIENT_BALANCE_FOR_TRANSACTION_FEE")
       | None => inl (ApiError 400 "INVALID_PAYLOAD")
       end.

Definition devnet_handle (zero_missing : bool) (R : Type) (c : call R) (d : devnet)
  : exc + (R * devnet) :=
  match c in call R return exc + (R * devnet) with
  | Generate =>
      inr (mkAccount (fresh_addr d) (next_key d),
           mkDevnet (bals d) (seqs d) (next_key d + 1) (clock d) (net_chain d) (receipts d))
  | TimeSecs => inr (clock d, d)
  | FundAccount a n =>
      inr ("0xfaucet",
           with_bals d (<[a := bal_of d a + n]> (bals d)) (<[a := seq_of d a]> (seqs d)) (receipts d))
  | AccountBalance a =>
      match bals d !! a with
      | Some n => inr (n, d)
      | None => if zero_missing then inr (0, d) else inl AccountNotFound
      end
  | ChainId => inr (net_chain d, d)
  | AccountInfo a =>
      match seqs d !! a with
      | Some n => inr (JObj [("sequence_number", JStr (dec_string n));
                             ("authentication_key", JStr "0x0")], d)
      | None => inl AccountNotFound
      end
  | CreateBcsTransaction a pl => inr (sdk_raw d a pl (seq_of d (address a)), d)
  | SimulateTransaction tx _ => inr (sim_json (affordable d tx), d)
  | CreateBcsSignedTransaction a pl sq =>
      inr (mkSignedTransaction (sdk_raw d a pl sq) (private_key a), d)
  | SubmitBcsTransaction stx => devnet_submit d stx
  | WaitForTransaction h =>
      match receipts d !! h with Some _ => inr (tt, d) | None => inl ConfirmationTimeout end
  | TransactionByHash h =>
      match receipts d !! h with Some r => inr (r, d) | None => inl TransactionNotFound end
  end.

(** A fresh devnet on chain 4. *)
Definition devnet0 : devnet := mkDevnet ∅ ∅ 1 1700000000 4 ∅.

(** The same collaborators with a simulation that answers [res]. *)
Definition with_simulation {W} (handle : forall R, call R -> W -> exc + (R * W)) (res : json)
  : forall R, call R -> W -> exc + (R * W) :=
  fun R c w =>
    match c in call R return exc + (R * W) with
    | SimulateTransaction _ _ => inr (res, w)
    | c' => handle _ c' w
    end.

(** The two accounts the devnet double generates from [devnet0]. *)
Definition devnet_alice : Account := mkAccount 1002 1.
Definition devnet_bob : Account := mkAccount 1003 2.

Definition devnet_payload : TransactionPayload :=
  PayloadEntryFunction
    (EntryFunction_natural "0x1::aptos_account" "transfer" []
       [mkTransactionArgument (AVAddress (address devnet_bob)) SerStruct;
        mkTransactionArgument (AVInt 1000) SerU64]).

(** What follows the first step satisfying [p] in a trace. *)
Definition rest_after (p : step -> bool) (tr : list step) : list step :=
  match after p tr with Some (_, r) => r | None => [] end.

(** The transaction the devnet double signs for Alice's transfer. *)
Definition devnet_submitted : SignedTransaction :=
  mkSignedTransaction (sdk_raw devnet0 devnet_alice devnet_payload 0) 1.

(** An address is on the devnet's chain once it holds a balance. *)
Definition devnet_onchain (d : devnet) (a : AccountAddress) : bool :=
  match bals d !! a with Some _ => true | None => false end.

(** How often the script may make each call: once, except the balance
    query (both accounts, before and after the transfer). *)
Definition call_bounds (tr : list step) : Prop :=
  Forall (fun m => (count_calls m tr <= 1)%nat)
    ["fund_account"; "chain_id"; "account"; "create_bcs_transaction";
     "simulate_transaction"; "create_bcs_signed_transaction";
     "submit_bcs_transaction"; "wait_for_transaction"; "transaction_by_hash"] /\
  (count_calls "account_balance" tr <= 4)%nat /\
  (count_calls "Account.generate" tr <= 2)%nat.

(** The SDK methods [main] awaits, in the order of the script. *)
Definition main_methods : list string :=
  ["Account.generate"; "Account.generate"; "fund_account"; "account_balance";
   "account_balance"; "chain_id"; "account"; "time.time"; "create_bcs_transaction";
   "simulate_transaction"; "create_bcs_signed_transaction"; "submit_bcs_transaction";
   "wait_for_transaction"; "transaction_by_hash"; "account_balance"; "account_balance"].

(** The same collaborators with an account fetch that answers [j]. *)
Definition with_account_data {W} (handle : forall R, call R -> W -> exc + (R * W)) (j : json)
  : forall R, call R -> W -> exc + (R * W) :=
  fun R c w =>
    match c in call R return exc + (R * W) with
    | AccountInfo _ => inr (j, w)
    | c' => handle _ c' w
    end.

(** The same collaborators with a receipt lookup that answers [d]. *)
Definition with_receipt {W} (handle : forall R, call R -> W -> exc + (R * W)) (d : json)
  : forall R, call R -> W -> exc + (R * W) :=
  fun R c w =>
    match c in call R return exc + (R * W) with
    | TransactionByHash _ => inr (d, w)
    | c' => handle _ c' w
    end.

(** A receipt of a transaction that aborted. *)
Definition failed_receipt : json :=
  JObj [("success", JBool false); ("vm_status", JStr "Move abort"); ("gas_used", JStr "7")].

(** A character [int()] reads as a decimal digit. *)
Definition is_digit (c : ascii) : Prop := digit_value c <> None.

(** ** Running [main] on the devnet double *)

(** With the [0x1::coin::balance] view, the whole script runs. *)
Example devnet_run_returns :
  match run (devnet_handle true) devnet0 with Returned _ _ => True | Raised _ _ => False end.
Proof. vm_compute. exact I. Qed.

(** With a balance query that raises for an address not on chain, the
    script stops at Bob's first balance query. *)
Example devnet_strict_run_raises :
  match run (devnet_handle false) devnet0 with
  | Raised AccountNotFound s => count_calls "account_balance" (trace s) = 2%nat
  | _ => False
  end.
Proof. vm_compute. reflexivity. Qed.

(** Every address holding a balance is at most [max_key]. *)
Lemma max_key_above (m : gmap Z Z) (k v : Z) : m !! k = Some v -> k <= max_key m.
Proof.
  intros H.
  assert (Hin : In (k, v) (map_to_list m))
    by (apply list_elem_of_In, elem_of_map_to_list; exact H).
  unfold max_key. revert Hin. generalize (map_to_list m) as l.
  induction l as [|[k' v'] l IH]; cbn; intros Hin; [contradiction|].
  destruct Hin as [Hin|Hin]; [injection Hin as -> ->; lia | specialize (IH Hin); lia].
Qed.

(** A generated address holds no balance yet. *)
Lemma fresh_addr_not_on_chain (d : devnet) : bals d !! fresh_addr d = None.
Proof.
  destruct (bals d !! fresh_addr d) eqn:E; [|reflexivity].
  apply max_key_above in E. unfold fresh_addr in E. lia.
Qed.

(** With balance queries that raise for unknown addresses, the devnet
    double keeps the ledger contract of the balance query: it raises
    [AccountNotFound] for an address not on chain, reading changes
    nothing, key generation yields an address not on chain, and the
    faucet only brings its own target on chain. *)
Lemma devnet_balance_unknown (d : devnet) (a : AccountAddress) :
  devnet_onchain d a = false -> devnet_handle false _ (AccountBalance a) d = inl AccountNotFound.
Proof. unfold devnet_onchain; cbn. destruct (bals d !! a); [discriminate | reflexivity]. Qed.

Lemma devnet_balance_read_only (d : devnet) (a n : Z) (d' : devnet) :
  devnet_handle false _ (AccountBalance a) d = inr (n, d') ->
  forall b, devnet_onchain d' b = devnet_onchain d b.
Proof.
  cbn; intros H. case_match; simplify_eq; reflexivity.
Qed.

Lemma devnet_generate_fresh (d : devnet) (acct : Account) (d' : devnet) :
  devnet_handle false _ Generate d = inr (acct, d') ->
  devnet_onchain d (address acct) = false /\ forall b, devnet_onchain d' b = devnet_onchain d b.
Proof.
  cbn. intros H; injection H; intros; subst.
  split; [|reflexivity].
  unfold devnet_onchain; cbn. rewrite fresh_addr_not_on_chain. reflexivity.
Qed.

Lemma devnet_fund_only_target (d : devnet) (a n : Z) (h : string) (d' : devnet) :
  devnet_handle false _ (FundAccount a n) d = inr (h, d') ->
  forall b, b <> a -> devnet_onchain d' b = devnet_onchain d b.
Proof.
  cbn. intros H; injection H; intros; subst.
  unfold devnet_onchain; cbn. rewrite lookup_insert_ne by congruence. reflexivity.
Qed.

(** ** [str] and [int] on decimal text *)

Lemma digit_char_value (m : N) :
  (m < 10)%N -> digit_value (ascii_of_N (48 + m)) = Some (Z.of_N m).
Proof.
  intros Hm.
  assert (m = 0 \/ m = 1 \/ m = 2 \/ m = 3 \/ m = 4 \/ m = 5 \/ m = 6 \/ m = 7 \/ m = 8 \/ m = 9)%N
    as Hc by lia.
  repeat destruct Hc as [->|Hc]; try (subst m); reflexivity.
Qed.

Lemma digit_not_space (c : ascii) : is_digit c -> is_py_space c = false.
Proof.
  unfold is_digit, digit_value, is_py_space. intros H.
  destruct (nat_of_ascii c) as [|[|[|[|[|[|[|[|[|[|[|[|[|[|n]]]]]]]]]]]]]] eqn:E;
    try reflexivity; cbn in H; try congruence.
  do 19 (destruct n as [|n]; [cbn in H; congruence|]); reflexivity.
Qed.

Lemma dec_aux_S (f : nat) (n : N) (acc : string) :
  dec_aux (S f) n acc =
  if (n <? 10)%N then String (ascii_of_N (48 + N.modulo n 10)) acc
  else dec_aux f (N.div n 10) (String (ascii_of_N (48 + N.modulo n 10)) acc).
Proof. reflexivity. Qed.

Lemma dec_aux_shape (f : nat) (n : N) (acc : string) :
  exists D, list_ascii_of_string (dec_aux (S f) n acc) = D ++ list_ascii_of_string acc /\
            D <> [] /\ Forall is_digit D.
Proof.
  revert n acc. induction f as [|f IH]; intros n acc; rewrite dec_aux_S.
  - exists [ascii_of_N (48 + N.modulo n 10)].
    split; [destruct (n <? 10)%N; reflexivity|].
    split; [discriminate|].
    constructor; [|constructor]. unfold is_digit.
    rewrite digit_char_value by (apply N.mod_lt; lia). discriminate.
  - assert (Hd : is_digit (ascii_of_N (48 + N.modulo n 10)))
      by (unfold is_digit; rewrite digit_char_value by (apply N.mod_lt; lia); discriminate).
    destruct (n <? 10)%N.
    + exists [ascii_of_N (48 + N.modulo n 10)].
      split; [reflexivity|]. split; [discriminate|]. repeat constructor; exact Hd.
    + destruct (IH (N.div n 10) (String (ascii_of_N (48 + N.modulo n 10)) acc)) as (D & HD & Hne & Hall).
      exists (D ++ [ascii_of_N (48 + N.modulo n 10)]).
      split; [rewrite HD; cbn; rewrite <- app_assoc; reflexivity|].
      split; [destruct D; [contradiction|discriminate]|].
      apply Forall_app; split; [exact Hall|repeat constructor; exact Hd].
Qed.

Lemma dec_aux_parse (f : nat) (n : N) (acc : string) (last : nat) :
  (n < 10 ^ N.of_nat (S f))%N ->
  parse_digits (list_ascii_of_string (dec_aux (S f) n acc)) 0 last =
  parse_digits (list_ascii_of_string acc) (Z.of_N n) 1.
Proof.
  revert n acc last. induction f as [|f IH]; intros n acc last Hn; rewrite dec_aux_S.
  - assert (Hlt : (n <? 10)%N = true) by (apply N.ltb_lt; cbn in Hn; lia).
    rewrite Hlt. cbn [list_ascii_of_string parse_digits].
    rewrite digit_char_value by (apply N.mod_lt; lia).
    rewrite N.mod_small by (cbn in Hn; lia). f_equal; lia.
  - destruct (n <? 10)%N eqn:Hlt.
    + apply N.ltb_lt in Hlt. cbn [list_ascii_of_string parse_digits].
      rewrite digit_char_value by (apply N.mod_lt; lia).
      rewrite N.mod_small by lia. f_equal; lia.
    + rewrite IH.
      * cbn [list_ascii_of_string parse_digits].
        rewrite digit_char_value by (apply N.mod_lt; lia).
        f_equal. rewrite (N.div_mod n 10) at 3 by lia. lia.
      * apply N.ltb_ge in Hlt.
        rewrite Nat2N.inj_succ, N.pow_succ_r' in Hn.
        apply N.Div0.div_lt_upper_bound; lia.
Qed.

Lemma drop_spaces_digit (c : ascii) (l : list ascii) :
  is_digit c -> drop_spaces (c :: l) = c :: l.
Proof. intros H. cbn. rewrite (digit_not_space c H). reflexivity. Qed.

(** ** Symbolic execution of [main] *)

Arguments getitem_key : simpl never.
Arguments getitem_idx : simpl never.
Arguments py_int : simpl never.

(** Case on every answer of a collaborator and every builtin that may
    raise, in the order the script meets them. *)
Ltac flow_split H :=
  repeat match type of H with
  | context [match ?x with inl _ => _ | inr _ => _ end] =>
      let E := fresh "E" in
      (destruct x as [?|[? ?]] eqn:E || destruct x as [?|?] eqn:E); cbn in H
  end.

Ltac flow_split_goal :=
  repeat match goal with
  | |- context [match ?x with inl _ => _ | inr _ => _ end] =>
      let E := fresh "E" in
      (destruct x as [?|[? ?]] eqn:E || destruct x as [?|?] eqn:E); cbn
  end.

Ltac flow_unfold_in H :=
  unfold final, run, main, bind, perform, assign, lift, raise, ret, record in H;
  cbn in H; flow_split H.

(** Unfold the final state [s] of a run into one case per path. *)
Ltac flow_exec s :=
  let Hs := fresh "Hs" in
  remember s as fs eqn:Hs;
  unfold final, run, main, bind, perform, assign, lift, raise, ret, record,
    with_clock, with_simulation in Hs;
  cbn in Hs; flow_split Hs; subst fs; cbn [locals trace world].

(** Evaluate [rest_after] on the concrete trace of one path. *)
Ltac rest_after_eval :=
  match goal with
  | |- context [rest_after ?p ?tr] =>
      let r := eval vm_compute in (rest_after p tr) in change (rest_after p tr) with r
  end.

(** ** C1: the signing call gets the fetched sequence number and the
    payload of the raw transaction *)

(** C1.  Whenever the script calls [create_bcs_signed_transaction] with
    account [a], payload [pl] and sequence number [sq], [sq] is
    [int(account_data["sequence_number"])] of the account fetch made for
    building, and the raw transaction the script assembled holds the same
    sequence number, the same payload and [a]'s address as sender. *)
Theorem sign_uses_fetched_sequence_number_and_payload {W}
    (handle : forall R, call R -> W -> exc + (R * W)) (w : W)
    (a : Account) (pl : TransactionPayload) (sq : Z) :
  In (SCall (ESign a pl sq)) (trace (final handle w)) ->
  exists d j r,
    locals (final handle w) !! "account_data" = Some (VJson d) /\
    getitem_key d "sequence_number" = inr j /\ py_int j = inr sq /\
    locals (final handle w) !! "raw_transaction" = Some (VRaw r) /\
    sequence_number r = sq /\ payload r = pl /\
    locals (final handle w) !! "alice" = Some (VAccount a) /\ sender r = address a.
Proof.
  flow_exec (final handle w); intros Hin; simpl in Hin.
  all: repeat (destruct Hin as [Hin|Hin]; [try discriminate|]); try contradiction.
  all: injection Hin as <- <- <-.
  all: do 3 eexists; split; [simplify_map_eq; reflexivity|].
  all: split; [eassumption|]; split; [eassumption|].
  all: split; [simplify_map_eq; reflexivity|].
  all: split; [reflexivity|]; split; [reflexivity|].
  all: split; [simplify_map_eq; reflexivity|reflexivity].
Qed.

Lemma sign_uses_fetched_sequence_number_and_payload_witness :
  In (SCall (ESign devnet_alice devnet_payload 0)) (trace (final (devnet_handle true) devnet0)) /\
  exists d j r,
    locals (final (devnet_handle true) devnet0) !! "account_data" = Some (VJson d) /\
    getitem_key d "sequence_number" = inr j /\ py_int j = inr 0 /\
    locals (final (devnet_handle true) devnet0) !! "raw_transaction" = Some (VRaw r) /\
    sequence_number r = 0 /\ payload r = devnet_payload /\
    locals (final (devnet_handle true) devnet0) !! "alice" = Some (VAccount devnet_alice) /\
    sender r = address devnet_alice.
Proof.
  assert (H : In (SCall (ESign devnet_alice devnet_payload 0))
                 (trace (final (devnet_handle true) devnet0)))
    by (vm_compute; repeat (first [left; reflexivity | right])).
  split; [exact H|].
  exact (sign_uses_fetched_sequence_number_and_payload (devnet_handle true) devnet0
           devnet_alice devnet_payload 0 H).
Defined.

(** ** C7: chain id and sequence number are fetched right before the build *)

(** C7.  Whenever the script builds [raw_transaction], the steps from its
    [chain_id] call on are: bind [chain_id], fetch the sender's account,
    bind [account_data] and [sequence_number], read the clock (not a
    ledger call), build [raw_transaction] from exactly those values. *)
Theorem chain_id_and_sequence_number_fetched_just_before_build {W}
    (handle : forall R, call R -> W -> exc + (R * W)) (w : W) (r : RawTransaction) :
  In (SBind "raw_transaction" (VRaw r)) (trace (final handle w)) ->
  exists cid a ad sn rest,
    after (is_call "chain_id") (trace (final handle w)) =
      Some (SCall EChainId,
            SBind "chain_id" (VInt cid) :: SCall (EAccount (address a)) ::
            SBind "account_data" (VJson ad) :: SBind "sequence_number" (VInt sn) ::
            SCall ETimeSecs :: SBind "raw_transaction" (VRaw r) :: rest) /\
    chain_id r = cid /\ sequence_number r = sn /\ sender r = address a /\
    is_ledger_call ETimeSecs = false.
Proof.
  flow_exec (final handle w); intros Hin; simpl in Hin.
  all: repeat (destruct Hin as [Hin|Hin]; [try discriminate|]); try contradiction.
  all: injection Hin as <-.
  all: do 5 eexists; split; [reflexivity|].
  all: repeat split.
Qed.

Lemma chain_id_and_sequence_number_fetched_just_before_build_witness :
  exists r,
  In (SBind "raw_transaction" (VRaw r)) (trace (final (devnet_handle true) devnet0)) /\
  exists cid a ad sn rest,
    after (is_call "chain_id") (trace (final (devnet_handle true) devnet0)) =
      Some (SCall EChainId,
            SBind "chain_id" (VInt cid) :: SCall (EAccount (address a)) ::
            SBind "account_data" (VJson ad) :: SBind "sequence_number" (VInt sn) ::
            SCall ETimeSecs :: SBind "raw_transaction" (VRaw r) :: rest) /\
    chain_id r = cid /\ sequence_number r = sn /\ sender r = address a /\
    is_ledger_call ETimeSecs = false.
Proof.
  exists (mkRawTransaction 1002 0 devnet_payload 2000 100 1700000600 4).
  assert (H : In (SBind "raw_transaction" (VRaw (mkRawTransaction 1002 0 devnet_payload 2000 100 1700000600 4)))
                 (trace (final (devnet_handle true) devnet0)))
    by (vm_compute; repeat (first [left; reflexivity | right])).
  split; [exact H|].
  exact (chain_id_and_sequence_number_fetched_just_before_build (devnet_handle true) devnet0 _ H).
Defined.

(** ** C10: signing and submission do not depend on the simulation *)

(** C10.  Whatever value the simulation's [success] flag has, the step
    after binding it is the signing call, and when signing returns, the
    step after binding [signed_transaction] is its submission. *)
Theorem sign_and_submit_follow_simulation_unconditionally {W}
    (handle : forall R, call R -> W -> exc + (R * W)) (w : W) (v : pyval) (rest : list step) :
  after (is_bind "success") (trace (final handle w)) = Some (SBind "success" v, rest) ->
  exists a pl sq rest',
    rest = SCall (ESign a pl sq) :: rest' /\
    ((exists x, rest' = [SRaise x]) \/
     (exists stx rest'', rest' = SBind "signed_transaction" (VSigned stx) :: SCall (ESubmit stx) :: rest'')).
Proof.
  flow_exec (final handle w); intros H; simpl in H.
  all: try discriminate H.
  all: injection H as <- <-.
  all: do 4 eexists; split; [reflexivity|].
  all: first [left; eexists; reflexivity | right; do 2 eexists; reflexivity].
Qed.

Lemma sign_and_submit_follow_simulation_unconditionally_witness :
  after (is_bind "success") (trace (final (with_simulation (devnet_handle true) (sim_json false)) devnet0))
    = Some (SBind "success" (VJson (JBool false)),
            rest_after (is_bind "success") (trace (final (with_simulation (devnet_handle true) (sim_json false)) devnet0))) /\
  exists a pl sq rest',
    rest_after (is_bind "success") (trace (final (with_simulation (devnet_handle true) (sim_json false)) devnet0))
      = SCall (ESign a pl sq) :: rest' /\
    ((exists x, rest' = [SRaise x]) \/
     (exists stx rest'', rest' = SBind "signed_transaction" (VSigned stx) :: SCall (ESubmit stx) :: rest'')).
Proof.
  assert (H : after (is_bind "success") (trace (final (with_simulation (devnet_handle true) (sim_json false)) devnet0))
    = Some (SBind "success" (VJson (JBool false)),
            rest_after (is_bind "success") (trace (final (with_simulation (devnet_handle true) (sim_json false)) devnet0))))
    by (vm_compute; reflexivity).
  split; [exact H|].
  exact (sign_and_submit_follow_simulation_unconditionally _ devnet0 _ _ H).
Defined.

(** ** C4: a predicted failure is not raised *)

(** C4.  When the simulation answers a result whose first entry has
    integer [gas_used] and [gas_unit_price] and [success] false, the
    script raises nothing: it binds the estimate, the unit price and
    [success = false] (the whole result, failure reason included, stays
    bound to [simulation_result]) and goes on to the signing call. *)
Theorem simulated_failure_does_not_raise {W}
    (handle : forall R, call R -> W -> exc + (R * W)) (w : W)
    (res r0 g p : json) (gu pu : Z) (rest : list step) :
  after (is_bind "simulation_result") (trace (final handle w)) =
    Some (SBind "simulation_result" (VJson res), rest) ->
  getitem_idx res 0 = inr r0 ->
  getitem_key r0 "gas_used" = inr g -> py_int g = inr gu ->
  getitem_key r0 "gas_unit_price" = inr p -> py_int p = inr pu ->
  getitem_key r0 "success" = inr (JBool false) ->
  exists a pl sq rest',
    rest = SBind "gas_used" (VInt gu) :: SBind "gas_unit_price" (VInt pu) ::
           SBind "success" (VJson (JBool false)) :: SCall (ESign a pl sq) :: rest'.
Proof.
  flow_exec (final handle w); intros H H0 H1 H2 H3 H4 H5; simpl in H.
  all: try discriminate H.
  all: injection H as <- <-.
  all: repeat match goal with
         | A : ?x = inr ?a, B : ?x = inr ?b |- _ =>
             rewrite A in B; injection B as B; subst
         end.
  all: try congruence.
  all: do 4 eexists; reflexivity.
Qed.

Lemma simulated_failure_does_not_raise_witness :
  after (is_bind "simulation_result")
        (trace (final (with_simulation (devnet_handle true) (sim_json false)) devnet0)) =
    Some (SBind "simulation_result" (VJson (sim_json false)),
          rest_after (is_bind "simulation_result")
            (trace (final (with_simulation (devnet_handle true) (sim_json false)) devnet0))) /\
  exists a pl sq rest',
    rest_after (is_bind "simulation_result")
      (trace (final (with_simulation (devnet_handle true) (sim_json false)) devnet0)) =
      SBind "gas_used" (VInt 7) :: SBind "gas_unit_price" (VInt 100) ::
      SBind "success" (VJson (JBool false)) :: SCall (ESign a pl sq) :: rest'.
Proof.
  assert (H : after (is_bind "simulation_result")
        (trace (final (with_simulation (devnet_handle true) (sim_json false)) devnet0)) =
    Some (SBind "simulation_result" (VJson (sim_json false)),
          rest_after (is_bind "simulation_result")
            (trace (final (with_simulation (devnet_handle true) (sim_json false)) devnet0))))
    by (vm_compute; reflexivity).
  split; [exact H|].
  exact (simulated_failure_does_not_raise _ devnet0 (sim_json false)
           (JObj [("gas_used", JStr "7"); ("gas_unit_price", JStr "100");
                  ("success", JBool false); ("vm_status", JStr "Move abort")])
           (JStr "7") (JStr "100") 7 100 _ H
           ltac:(vm_compute; reflexivity) ltac:(vm_compute; reflexivity)
           ltac:(vm_compute; reflexivity) ltac:(vm_compute; reflexivity)
           ltac:(vm_compute; reflexivity) ltac:(vm_compute; reflexivity)).
Defined.

(** ** C5: the final [gas_used] is the receipt's *)

(** C5.  When the script runs to its end, [gas_used] was bound twice:
    first to [int(simulation_result[0]["gas_used"])], the estimate, then
    to [transaction_details["gas_used"]] from the receipt; the frame
    keeps the receipt's value only. *)
Theorem final_gas_used_comes_from_receipt {W}
    (handle : forall R, call R -> W -> exc + (R * W)) (w : W) (u : unit) (s : st) :
  run handle w = Returned u s ->
  exists res r0 ge gu d g,
    locals s !! "simulation_result" = Some (VJson res) /\
    getitem_idx res 0 = inr r0 /\ getitem_key r0 "gas_used" = inr ge /\ py_int ge = inr gu /\
    locals s !! "transaction_details" = Some (VJson d) /\
    getitem_key d "gas_used" = inr g /\
    List.filter (is_bind "gas_used") (trace s) =
      [SBind "gas_used" (VInt gu); SBind "gas_used" (VJson g)] /\
    locals s !! "gas_used" = Some (VJson g).
Proof.
  intros H; flow_unfold_in H.
  all: try discriminate H.
  pose proof (f_equal final_state H) as Hs; clear H; cbn [final_state] in Hs; subst s.
  do 6 eexists.
  split; [simplify_map_eq; reflexivity|].
  do 3 (split; [eassumption|]).
  split; [simplify_map_eq; reflexivity|].
  split; [eassumption|].
  split; [reflexivity|].
  simplify_map_eq; reflexivity.
Qed.

Lemma devnet_run_result :
  run (devnet_handle true) devnet0 = Returned tt (final (devnet_handle true) devnet0).
Proof. vm_compute. reflexivity. Qed.

Lemma final_gas_used_comes_from_receipt_witness :
  run (devnet_handle true) devnet0 = Returned tt (final (devnet_handle true) devnet0) /\
  exists res r0 ge gu d g,
    locals (final (devnet_handle true) devnet0) !! "simulation_result" = Some (VJson res) /\
    getitem_idx res 0 = inr r0 /\ getitem_key r0 "gas_used" = inr ge /\ py_int ge = inr gu /\
    locals (final (devnet_handle true) devnet0) !! "transaction_details" = Some (VJson d) /\
    getitem_key d "gas_used" = inr g /\
    List.filter (is_bind "gas_used") (trace (final (devnet_handle true) devnet0)) =
      [SBind "gas_used" (VInt gu); SBind "gas_used" (VJson g)] /\
    locals (final (devnet_handle true) devnet0) !! "gas_used" = Some (VJson g).
Proof.
  assert (H : run (devnet_handle true) devnet0 = Returned tt (final (devnet_handle true) devnet0))
    by (vm_compute; reflexivity).
  split; [exact H|].
  exact (final_gas_used_comes_from_receipt (devnet_handle true) devnet0 tt _ H).
Defined.

(** ** C2: the assembled raw transaction is never signed or submitted *)

Lemma clock_changes_no_call {W}
    (handle : forall R, call R -> W -> exc + (R * W)) (w : W) (t1 t2 : Z) :
  calls (trace (final (with_clock handle t1) w)) = calls (trace (final (with_clock handle t2) w)) /\
  match run (with_clock handle t1) w, run (with_clock handle t2) w with
  | Returned _ _, Returned _ _ => True
  | Raised x1 _, Raised x2 _ => x1 = x2
  | _, _ => False
  end.
Proof.
  unfold final, run, main, bind, perform, assign, lift, raise, ret, record, with_clock; cbn.
  flow_split_goal.
  all: split; reflexivity.
Qed.

Lemma submitted_is_signing_result {W}
    (handle : forall R, call R -> W -> exc + (R * W)) (w : W) (stx : SignedTransaction) :
  In (SCall (ESubmit stx)) (trace (final handle w)) ->
  exists a pl sq rest r,
    after (is_call "create_bcs_signed_transaction") (trace (final handle w)) =
      Some (SCall (ESign a pl sq),
            SBind "signed_transaction" (VSigned stx) :: SCall (ESubmit stx) :: rest) /\
    count_calls "submit_bcs_transaction" (trace (final handle w)) = 1%nat /\
    locals (final handle w) !! "raw_transaction" = Some (VRaw r) /\
    max_gas_amount r = 2000 /\ gas_unit_price r = 100 /\
    payload r = pl /\ sequence_number r = sq.
Proof.
  flow_exec (final handle w); intros Hin; simpl in Hin.
  all: repeat (destruct Hin as [Hin|Hin]; [try discriminate|]); try contradiction.
  all: injection Hin as <-.
  all: do 5 eexists; split; [reflexivity|].
  all: split; [reflexivity|].
  all: split; [simplify_map_eq; reflexivity|].
  all: repeat split.
Qed.

(** C2.  The raw transaction the script assembles (max gas 2000, unit
    price 100, expiration now + 600) is never passed to a collaborator:
    the clock reading that sets its expiration changes no call of the
    script and not how the script ends, and the transaction submitted is
    the one [create_bcs_signed_transaction] returned for the sender, the
    payload and the sequence number alone. *)
Theorem assembled_raw_transaction_not_submitted {W}
    (handle : forall R, call R -> W -> exc + (R * W)) (w : W) (t1 t2 : Z)
    (stx : SignedTransaction) :
  (calls (trace (final (with_clock handle t1) w)) = calls (trace (final (with_clock handle t2) w)) /\
   match run (with_clock handle t1) w, run (with_clock handle t2) w with
   | Returned _ _, Returned _ _ => True
   | Raised x1 _, Raised x2 _ => x1 = x2
   | _, _ => False
   end) /\
  (In (SCall (ESubmit stx)) (trace (final handle w)) ->
   exists a pl sq rest r,
     after (is_call "create_bcs_signed_transaction") (trace (final handle w)) =
       Some (SCall (ESign a pl sq),
             SBind "signed_transaction" (VSigned stx) :: SCall (ESubmit stx) :: rest) /\
     count_calls "submit_bcs_transaction" (trace (final handle w)) = 1%nat /\
     locals (final handle w) !! "raw_transaction" = Some (VRaw r) /\
     max_gas_amount r = 2000 /\ gas_unit_price r = 100 /\
     payload r = pl /\ sequence_number r = sq).
Proof.
  split; [apply clock_changes_no_call | apply submitted_is_signing_result].
Qed.

Lemma assembled_raw_transaction_not_submitted_witness :
  In (SCall (ESubmit devnet_submitted)) (trace (final (devnet_handle true) devnet0)) /\
  exists a pl sq rest r,
    after (is_call "create_bcs_signed_transaction") (trace (final (devnet_handle true) devnet0)) =
      Some (SCall (ESign a pl sq),
            SBind "signed_transaction" (VSigned devnet_submitted) ::
            SCall (ESubmit devnet_submitted) :: rest) /\
    count_calls "submit_bcs_transaction" (trace (final (devnet_handle true) devnet0)) = 1%nat /\
    locals (final (devnet_handle true) devnet0) !! "raw_transaction" = Some (VRaw r) /\
    max_gas_amount r = 2000 /\ gas_unit_price r = 100 /\
    payload r = pl /\ sequence_number r = sq.
Proof.
  assert (H : In (SCall (ESubmit devnet_submitted)) (trace (final (devnet_handle true) devnet0)))
    by (vm_compute; repeat (first [left; reflexivity | right])).
  split; [exact H|].
  exact (proj2 (assembled_raw_transaction_not_submitted (devnet_handle true) devnet0 0 0
                  devnet_submitted) H).
Defined.

(** ** C9: the expiration is the clock reading plus 600 seconds *)

(** C9.  The raw transaction the script assembles expires at
    [int(time.time()) + 600]: for every clock reading [t], the bound
    [raw_transaction] has expiration [t + 600]. *)
Theorem expiration_is_clock_plus_600 {W}
    (handle : forall R, call R -> W -> exc + (R * W)) (w : W) (t : Z) (r : RawTransaction) :
  In (SBind "raw_transaction" (VRaw r)) (trace (final (with_clock handle t) w)) ->
  expiration_timestamps_secs r = t + 600.
Proof.
  flow_exec (final (with_clock handle t) w); intros Hin; simpl in Hin.
  all: repeat (destruct Hin as [Hin|Hin]; [try discriminate|]); try contradiction.
  all: injection Hin as <-; reflexivity.
Qed.

Lemma expiration_is_clock_plus_600_witness :
  In (SBind "raw_transaction" (VRaw (mkRawTransaction 1002 0 devnet_payload 2000 100 1700000600 4)))
     (trace (final (with_clock (devnet_handle true) 1700000000) devnet0)) /\
  expiration_timestamps_secs (mkRawTransaction 1002 0 devnet_payload 2000 100 1700000600 4)
    = 1700000000 + 600.
Proof.
  assert (H : In (SBind "raw_transaction" (VRaw (mkRawTransaction 1002 0 devnet_payload 2000 100 1700000600 4)))
     (trace (final (with_clock (devnet_handle true) 1700000000) devnet0)))
    by (vm_compute; repeat (first [left; reflexivity | right])).
  split; [exact H|].
  exact (expiration_is_clock_plus_600 (devnet_handle true) devnet0 1700000000 _ H).
Defined.

(** ** C8: a failure ends the script; no call is retried *)

(** C8 (as the script does it).  A run that raises ends with that one
    exception as its last step and raises nothing before it; a run that
    returns raised nothing; and in every run each collaborator call is
    made at most once, except the balance query, made at most four
    times. *)
Theorem failures_abort_and_no_retries {W}
    (handle : forall R, call R -> W -> exc + (R * W)) (w : W) :
  match run handle w with
  | Raised x s =>
      last (trace s) = Some (SRaise x) /\
      List.filter is_raise (trace s) = [SRaise x] /\ call_bounds (trace s)
  | Returned _ s => List.filter is_raise (trace s) = [] /\ call_bounds (trace s)
  end.
Proof.
  flow_exec (run handle w); cbv beta iota.
  all: split; [reflexivity|].
  all: try (split; [reflexivity|]).
  all: unfold call_bounds; split; [|split; vm_compute; lia].
  all: repeat (apply List.Forall_cons; [vm_compute; lia|]); apply List.Forall_nil.
Qed.

(** C8 fails as stated: the balance query is made four times in a run
    of the devnet double, twice for Alice. *)
Lemma balance_query_made_four_times :
  count_calls "account_balance" (trace (final (devnet_handle true) devnet0)) = 4%nat /\
  length (List.filter (fun x => match x with SCall (EBalance a) => a =? address devnet_alice | _ => false end)
                 (trace (final (devnet_handle true) devnet0))) = 2%nat.
Proof. vm_compute. split; reflexivity. Qed.

(** ** C6: the recipient's first balance query fails

    The balance query only delegates to the ledger.  Its contract, as
    the specification gives it, is taken as hypotheses on the
    collaborators: a balance query for an address not on chain raises
    [AccountNotFound] and reads nothing else; a generated key pair's
    address is not on chain; the faucet brings only its target on
    chain. *)

Section BalanceContract.

Context {W : Type}.
Context (handle : forall R, call R -> W -> exc + (R * W)).
Context (onchain : W -> AccountAddress -> bool).

Hypothesis balance_unknown_account : forall w a,
  onchain w a = false -> handle _ (AccountBalance a) w = inl AccountNotFound.
Hypothesis balance_read_only : forall w a n w',
  handle _ (AccountBalance a) w = inr (n, w') -> forall b, onchain w' b = onchain w b.
Hypothesis generate_fresh : forall w acct w',
  handle _ Generate w = inr (acct, w') ->
  onchain w (address acct) = false /\ forall b, onchain w' b = onchain w b.
Hypothesis fund_only_target : forall w a n h w',
  handle _ (FundAccount a n) w = inr (h, w') -> forall b, b <> a -> onchain w' b = onchain w b.

(** C6.  Under that contract, when the script has generated Alice and
    Bob (distinct addresses) and reaches Bob's first balance query, that
    query raises [AccountNotFound]: after [alice_balance] is bound the
    script makes Bob's query, raises, and does nothing more. *)
Theorem recipient_initial_balance_query_fails (w : W) (a b : Account) :
  locals (final handle w) !! "alice" = Some (VAccount a) ->
  locals (final handle w) !! "bob" = Some (VAccount b) ->
  address a <> address b ->
  In (SCall (EBalance (address b))) (trace (final handle w)) ->
  rest_after (is_bind "alice_balance") (trace (final handle w)) =
    [SCall (EBalance (address b)); SRaise AccountNotFound].
Proof.
  flow_exec (final handle w); intros Ha Hb Hne Hin; simpl in Hin.
  all: simplify_map_eq.
  all: try (match goal with
    | E2 : handle _ Generate ?w1 = inr (?bo, ?w2),
      E3 : handle _ (FundAccount _ _) ?w2 = inr (_, ?w3),
      E4 : handle _ (AccountBalance _) ?w3 = inr (_, ?w4),
      E5 : handle _ (AccountBalance (address ?bo)) ?w4 = _ |- _ =>
        assert (Hoff : onchain w4 (address bo) = false) by
          (destruct (generate_fresh _ _ _ E2) as [F1 F2];
           rewrite (balance_read_only _ _ _ _ E4), (fund_only_target _ _ _ _ _ E3), F2
             by congruence;
           exact F1);
        rewrite (balance_unknown_account _ _ Hoff) in E5;
        first [discriminate E5 | injection E5 as <-; reflexivity]
    end).
  all: repeat (destruct Hin as [Hin|Hin];
               [first [discriminate Hin | injection Hin as Hin; congruence] |]);
       contradiction.
Qed.

End BalanceContract.

Lemma recipient_initial_balance_query_fails_witness :
  locals (final (devnet_handle false) devnet0) !! "alice" = Some (VAccount devnet_alice) /\
  locals (final (devnet_handle false) devnet0) !! "bob" = Some (VAccount devnet_bob) /\
  address devnet_alice <> address devnet_bob /\
  In (SCall (EBalance (address devnet_bob))) (trace (final (devnet_handle false) devnet0)) /\
  rest_after (is_bind "alice_balance") (trace (final (devnet_handle false) devnet0)) =
    [SCall (EBalance (address devnet_bob)); SRaise AccountNotFound].
Proof.
  assert (H1 : locals (final (devnet_handle false) devnet0) !! "alice" = Some (VAccount devnet_alice))
    by (vm_compute; reflexivity).
  assert (H2 : locals (final (devnet_handle false) devnet0) !! "bob" = Some (VAccount devnet_bob))
    by (vm_compute; reflexivity).
  assert (H3 : address devnet_alice <> address devnet_bob) by (vm_compute; lia).
  assert (H4 : In (SCall (EBalance (address devnet_bob))) (trace (final (devnet_handle false) devnet0)))
    by (vm_compute; repeat (first [left; reflexivity | right])).
  split; [exact H1|]. split; [exact H2|]. split; [exact H3|]. split; [exact H4|].
  exact (recipient_initial_balance_query_fails (devnet_handle false) devnet_onchain
           devnet_balance_unknown devnet_balance_read_only devnet_generate_fresh
           devnet_fund_only_target devnet0 _ _ H1 H2 H3 H4).
Defined.

(** ** C3: the end-to-end scenario on the devnet double *)

(** C3: the script diverges from the scenario in the fee budget only.
    In a run of the devnet double the raw transaction the script
    assembles and logs carries max gas 2_000 at unit price 100, but the
    transaction it submits is the one [create_bcs_signed_transaction]
    built, with the SDK's default max gas 100_000.  In the same run Alice
    is funded with 100_000_000, the submitted transaction transfers
    1_000 to Bob, Alice's balance drops by 1_000 plus the fee (7 gas
    units at 100), and Bob's grows by exactly 1_000. *)
Lemma submitted_fee_budget_is_not_2000 :
  exists r,
    locals (final (devnet_handle true) devnet0) !! "raw_transaction" = Some (VRaw r) /\
    max_gas_amount r = 2000 /\ gas_unit_price r = 100 /\
    In (SCall (ESubmit devnet_submitted)) (trace (final (devnet_handle true) devnet0)) /\
    max_gas_amount (transaction devnet_submitted) = 100000 /\
    payload (transaction devnet_submitted) = devnet_payload /\
    In (SCall (EFund (address devnet_alice) 100000000)) (trace (final (devnet_handle true) devnet0)) /\
    locals (final (devnet_handle true) devnet0) !! "alice_balance" = Some (VInt 100000000) /\
    locals (final (devnet_handle true) devnet0) !! "alice_final_balance"
      = Some (VInt (100000000 - (1000 + devnet_gas_used * 100))) /\
    locals (final (devnet_handle true) devnet0) !! "bob_balance" = Some (VInt 0) /\
    locals (final (devnet_handle true) devnet0) !! "bob_final_balance" = Some (VInt 1000).
Proof.
  eexists.
  split; [vm_compute; reflexivity|].
  split; [reflexivity|]. split; [reflexivity|].
  split; [vm_compute; repeat (first [left; reflexivity | right])|].
  split; [reflexivity|]. split; [reflexivity|].
  split; [vm_compute; repeat (first [left; reflexivity | right])|].
  repeat split; vm_compute; reflexivity.
Qed.


(** ** Further properties of [main] *)

(** Every run makes its calls in the order of the script: the SDK
    methods a raising run called are a prefix of [main_methods], and a
    returning run called exactly [main_methods]. *)
Theorem calls_follow_script_order {W}
    (handle : forall R, call R -> W -> exc + (R * W)) (w : W) :
  match run handle w with
  | Returned _ s => map ev_method (calls (trace s)) = main_methods
  | Raised _ s => map ev_method (calls (trace s)) `prefix_of` main_methods
  end.
Proof.
  flow_exec (run handle w); cbv beta iota.
  all: first [reflexivity | eexists; reflexivity].
Qed.

(** A run that returns makes exactly these sixteen calls: Alice is
    funded with 100_000_000; both balances are read before and after;
    chain id and Alice's account are fetched; simulation gets the
    transaction [create_bcs_transaction] built and Alice; the signing
    gets the raw transaction's payload and sequence number; the hash
    that submission returned is the one waited for and looked up. *)
Theorem returned_run_calls {W}
    (handle : forall R, call R -> W -> exc + (R * W)) (w : W) (u : unit) (s : st) :
  run handle w = Returned u s ->
  exists a b r tx stx h,
    locals s !! "alice" = Some (VAccount a) /\
    locals s !! "bob" = Some (VAccount b) /\
    locals s !! "raw_transaction" = Some (VRaw r) /\
    locals s !! "simulation_transaction" = Some (VRaw tx) /\
    locals s !! "signed_transaction" = Some (VSigned stx) /\
    locals s !! "transaction_hash" = Some (VStr h) /\
    calls (trace s) =
      [EGenerate; EGenerate; EFund (address a) 100000000;
       EBalance (address a); EBalance (address b); EChainId; EAccount (address a);
       ETimeSecs; ECreateBcs a (payload r); ESimulate tx a;
       ESign a (payload r) (sequence_number r); ESubmit stx; EWait h; EByHash h;
       EBalance (address a); EBalance (address b)].
Proof.
  intros H; flow_unfold_in H.
  all: try discriminate H.
  pose proof (f_equal final_state H) as Hs; clear H; cbn [final_state] in Hs; subst s.
  do 6 eexists.
  do 6 (split; [simplify_map_eq; reflexivity|]).
  reflexivity.
Qed.

(** When [account_data] has no ["sequence_number"] (or it is not an
    object), or [int()] of it fails, the exception is raised right after
    [account_data] is bound: no raw transaction is built, nothing is
    simulated, signed or submitted. *)
Theorem sequence_number_failure_stops_before_build {W}
    (handle : forall R, call R -> W -> exc + (R * W)) (w : W) (j : json) (x : exc) :
  In (SBind "account_data" (VJson j)) (trace (final handle w)) ->
  (getitem_key j "sequence_number" = inl x \/
   exists v, getitem_key j "sequence_number" = inr v /\ py_int v = inl x) ->
  rest_after (is_bind "account_data") (trace (final handle w)) = [SRaise x].
Proof.
  flow_exec (final handle w); intros Hin Hx; simpl in Hin.
  all: repeat (destruct Hin as [Hin|Hin]; [try discriminate Hin|]); try contradiction.
  all: injection Hin; intros; subst.
  all: rest_after_eval.
  all: destruct Hx as [Hx|(v & Hv & Hp)]; congruence.
Qed.

(** When [simulation_result[0]] fails (an empty list, for one), the
    exception is raised right after [simulation_result] is bound:
    nothing is signed or submitted. *)
Theorem simulation_index_failure_stops_before_signing {W}
    (handle : forall R, call R -> W -> exc + (R * W)) (w : W) (res : json) (x : exc) :
  In (SBind "simulation_result" (VJson res)) (trace (final handle w)) ->
  getitem_idx res 0 = inl x ->
  rest_after (is_bind "simulation_result") (trace (final handle w)) = [SRaise x].
Proof.
  flow_exec (final handle w); intros Hin Hx; simpl in Hin.
  all: repeat (destruct Hin as [Hin|Hin]; [try discriminate Hin|]); try contradiction.
  all: injection Hin; intros; subst.
  all: rest_after_eval; congruence.
Qed.

(** When the receipt lacks ["success"], ["vm_status"] or ["gas_used"],
    the run ends raising, and no balance is read after
    [transaction_details] is bound. *)
Theorem receipt_key_failure_skips_final_balances {W}
    (handle : forall R, call R -> W -> exc + (R * W)) (w : W) (d : json) (k : string) (x : exc) :
  In (SBind "transaction_details" (VJson d)) (trace (final handle w)) ->
  In k ["success"; "vm_status"; "gas_used"] ->
  getitem_key d k = inl x ->
  exists x',
    last (trace (final handle w)) = Some (SRaise x') /\
    count_calls "account_balance" (rest_after (is_bind "transaction_details") (trace (final handle w))) = 0%nat.
Proof.
  flow_exec (final handle w); intros Hin Hk Hx; simpl in Hin.
  all: repeat (destruct Hin as [Hin|Hin]; [try discriminate Hin|]); try contradiction.
  all: injection Hin; intros; subst.
  all: try (destruct Hk as [<-|[<-|[<-|[]]]]; congruence).
  all: eexists; split; reflexivity.
Qed.

(** Whatever the receipt's ["success"] and ["vm_status"] say (a failed
    transaction included), once the three fields are read the script
    goes on to read Alice's final balance: nothing branches on them. *)
Theorem receipt_flags_do_not_gate_final_balances {W}
    (handle : forall R, call R -> W -> exc + (R * W)) (w : W) (d sc vs g : json) :
  In (SBind "transaction_details" (VJson d)) (trace (final handle w)) ->
  getitem_key d "success" = inr sc ->
  getitem_key d "vm_status" = inr vs ->
  getitem_key d "gas_used" = inr g ->
  exists a rest,
    locals (final handle w) !! "alice" = Some (VAccount a) /\
    rest_after (is_bind "transaction_details") (trace (final handle w)) =
      SBind "success" (VJson sc) :: SBind "vm_status" (VJson vs) :: SBind "gas_used" (VJson g) ::
      SCall (EBalance (address a)) :: rest.
Proof.
  flow_exec (final handle w); intros Hin Hs Hv Hg; simpl in Hin.
  all: repeat (destruct Hin as [Hin|Hin]; [try discriminate Hin|]); try contradiction.
  all: injection Hin; intros; subst.
  all: try congruence.
  all: do 2 eexists; split; [simplify_map_eq; reflexivity|].
  all: rest_after_eval; repeat f_equal; congruence.
Qed.

(** When the script runs to its end, [success] was bound twice: to the
    simulation's flag, then to the receipt's; the frame keeps the
    receipt's. *)
Theorem final_success_is_receipt_flag {W}
    (handle : forall R, call R -> W -> exc + (R * W)) (w : W) (u : unit) (s : st) :
  run handle w = Returned u s ->
  exists res r0 d s1 s2,
    locals s !! "simulation_result" = Some (VJson res) /\
    getitem_idx res 0 = inr r0 /\ getitem_key r0 "success" = inr s1 /\
    locals s !! "transaction_details" = Some (VJson d) /\
    getitem_key d "success" = inr s2 /\
    List.filter (is_bind "success") (trace s) =
      [SBind "success" (VJson s1); SBind "success" (VJson s2)] /\
    locals s !! "success" = Some (VJson s2).
Proof.
  intros H; flow_unfold_in H.
  all: try discriminate H.
  pose proof (f_equal final_state H) as Hs; clear H; cbn [final_state] in Hs; subst s.
  do 5 eexists.
  split; [simplify_map_eq; reflexivity|].
  split; [eassumption|].
  split; [eassumption|].
  split; [simplify_map_eq; reflexivity|].
  split; [eassumption|].
  split; [reflexivity|].
  simplify_map_eq; reflexivity.
Qed.

Lemma returned_run_calls_witness :
  run (devnet_handle true) devnet0 = Returned tt (final (devnet_handle true) devnet0) /\
  exists a b r tx stx h,
    locals (final (devnet_handle true) devnet0) !! "alice" = Some (VAccount a) /\
    locals (final (devnet_handle true) devnet0) !! "bob" = Some (VAccount b) /\
    locals (final (devnet_handle true) devnet0) !! "raw_transaction" = Some (VRaw r) /\
    locals (final (devnet_handle true) devnet0) !! "simulation_transaction" = Some (VRaw tx) /\
    locals (final (devnet_handle true) devnet0) !! "signed_transaction" = Some (VSigned stx) /\
    locals (final (devnet_handle true) devnet0) !! "transaction_hash" = Some (VStr h) /\
    calls (trace (final (devnet_handle true) devnet0)) =
      [EGenerate; EGenerate; EFund (address a) 100000000;
       EBalance (address a); EBalance (address b); EChainId; EAccount (address a);
       ETimeSecs; ECreateBcs a (payload r); ESimulate tx a;
       ESign a (payload r) (sequence_number r); ESubmit stx; EWait h; EByHash h;
       EBalance (address a); EBalance (address b)].
Proof.
  assert (H : run (devnet_handle true) devnet0 = Returned tt (final (devnet_handle true) devnet0))
    by (vm_compute; reflexivity).
  split; [exact H|].
  exact (returned_run_calls (devnet_handle true) devnet0 tt _ H).
Defined.

Lemma sequence_number_failure_stops_before_build_witness :
  In (SBind "account_data" (VJson (JObj [("authentication_key", JStr "0x0")])))
     (trace (final (with_account_data (devnet_handle true) (JObj [("authentication_key", JStr "0x0")])) devnet0)) /\
  rest_after (is_bind "account_data")
    (trace (final (with_account_data (devnet_handle true) (JObj [("authentication_key", JStr "0x0")])) devnet0))
    = [SRaise (KeyError "sequence_number")].
Proof.
  assert (H : In (SBind "account_data" (VJson (JObj [("authentication_key", JStr "0x0")])))
     (trace (final (with_account_data (devnet_handle true) (JObj [("authentication_key", JStr "0x0")])) devnet0)))
    by (vm_compute; repeat (first [left; reflexivity | right])).
  assert (Hx : getitem_key (JObj [("authentication_key", JStr "0x0")]) "sequence_number"
                = inl (KeyError "sequence_number")) by (vm_compute; reflexivity).
  split; [exact H|].
  exact (sequence_number_failure_stops_before_build _ devnet0 _ _ H (or_introl Hx)).
Defined.

Lemma simulation_index_failure_stops_before_signing_witness :
  In (SBind "simulation_result" (VJson (JArr [])))
     (trace (final (with_simulation (devnet_handle true) (JArr [])) devnet0)) /\
  getitem_idx (JArr []) 0 = inl IndexError /\
  rest_after (is_bind "simulation_result")
    (trace (final (with_simulation (devnet_handle true) (JArr [])) devnet0)) = [SRaise IndexError].
Proof.
  assert (H : In (SBind "simulation_result" (VJson (JArr [])))
     (trace (final (with_simulation (devnet_handle true) (JArr [])) devnet0)))
    by (vm_compute; repeat (first [left; reflexivity | right])).
  assert (H2 : getitem_idx (JArr []) 0 = inl IndexError) by (vm_compute; reflexivity).
  split; [exact H|]. split; [exact H2|].
  exact (simulation_index_failure_stops_before_signing _ devnet0 _ _ H H2).
Defined.

Lemma receipt_key_failure_skips_final_balances_witness :
  In (SBind "transaction_details" (VJson (JObj [("success", JBool true)])))
     (trace (final (with_receipt (devnet_handle true) (JObj [("success", JBool true)])) devnet0)) /\
  In "vm_status" ["success"; "vm_status"; "gas_used"] /\
  getitem_key (JObj [("success", JBool true)]) "vm_status" = inl (KeyError "vm_status") /\
  exists x',
    last (trace (final (with_receipt (devnet_handle true) (JObj [("success", JBool true)])) devnet0))
      = Some (SRaise x') /\
    count_calls "account_balance"
      (rest_after (is_bind "transaction_details")
         (trace (final (with_receipt (devnet_handle true) (JObj [("success", JBool true)])) devnet0)))
      = 0%nat.
Proof.
  assert (H : In (SBind "transaction_details" (VJson (JObj [("success", JBool true)])))
     (trace (final (with_receipt (devnet_handle true) (JObj [("success", JBool true)])) devnet0)))
    by (vm_compute; repeat (first [left; reflexivity | right])).
  assert (Hk : In "vm_status" ["success"; "vm_status"; "gas_used"]) by (right; left; reflexivity).
  assert (Hx : getitem_key (JObj [("success", JBool true)]) "vm_status" = inl (KeyError "vm_status"))
    by (vm_compute; reflexivity).
  split; [exact H|]. split; [exact Hk|]. split; [exact Hx|].
  exact (receipt_key_failure_skips_final_balances _ devnet0 _ _ _ H Hk Hx).
Defined.

Lemma receipt_flags_do_not_gate_final_balances_witness :
  In (SBind "transaction_details" (VJson failed_receipt))
     (trace (final (with_receipt (devnet_handle true) failed_receipt) devnet0)) /\
  getitem_key failed_receipt "success" = inr (JBool false) /\
  getitem_key failed_receipt "vm_status" = inr (JStr "Move abort") /\
  getitem_key failed_receipt "gas_used" = inr (JStr "7") /\
  exists a rest,
    locals (final (with_receipt (devnet_handle true) failed_receipt) devnet0) !! "alice" = Some (VAccount a) /\
    rest_after (is_bind "transaction_details")
      (trace (final (with_receipt (devnet_handle true) failed_receipt) devnet0)) =
      SBind "success" (VJson (JBool false)) :: SBind "vm_status" (VJson (JStr "Move abort")) ::
      SBind "gas_used" (VJson (JStr "7")) :: SCall (EBalance (address a)) :: rest.
Proof.
  assert (H : In (SBind "transaction_details" (VJson failed_receipt))
     (trace (final (with_receipt (devnet_handle true) failed_receipt) devnet0)))
    by (vm_compute; repeat (first [left; reflexivity | right])).
  assert (H1 : getitem_key failed_receipt "success" = inr (JBool false)) by (vm_compute; reflexivity).
  assert (H2 : getitem_key failed_receipt "vm_status" = inr (JStr "Move abort")) by (vm_compute; reflexivity).
  assert (H3 : getitem_key failed_receipt "gas_used" = inr (JStr "7")) by (vm_compute; reflexivity).
  split; [exact H|]. split; [exact H1|]. split; [exact H2|]. split; [exact H3|].
  exact (receipt_flags_do_not_gate_final_balances _ devnet0 _ _ _ _ H H1 H2 H3).
Defined.

Lemma final_success_is_receipt_flag_witness :
  run (devnet_handle true) devnet0 = Returned tt (final (devnet_handle true) devnet0) /\
  exists res r0 d s1 s2,
    locals (final (devnet_handle true) devnet0) !! "simulation_result" = Some (VJson res) /\
    getitem_idx res 0 = inr r0 /\ getitem_key r0 "success" = inr s1 /\
    locals (final (devnet_handle true) devnet0) !! "transaction_details" = Some (VJson d) /\
    getitem_key d "success" = inr s2 /\
    List.filter (is_bind "success") (trace (final (devnet_handle true) devnet0)) =
      [SBind "success" (VJson s1); SBind "success" (VJson s2)] /\
    locals (final (devnet_handle true) devnet0) !! "success" = Some (VJson s2).
Proof.
  assert (H : run (devnet_handle true) devnet0 = Returned tt (final (devnet_handle true) devnet0))
    by (vm_compute; reflexivity).
  split; [exact H|].
  exact (final_success_is_receipt_flag (devnet_handle true) devnet0 tt _ H).
Defined.

(** [int()] as the script applies it to ["sequence_number"],
    ["gas_used"] and ["gas_unit_price"] reads back every integer of
    fewer than 64 digits from its decimal text [str(n)]. *)
Theorem int_reads_back_str (z : Z) :
  Z.abs z < 10 ^ 64 -> py_int (JStr (dec_string z)) = inr z.
Proof.
  intros Hz. unfold py_int, parse_int, dec_string.
  destruct (dec_aux_shape 63 (Z.to_N (Z.abs z)) "") as (D & HD & Hne & Hall).
  assert (Hp : parse_digits D 0 0 = Some (Z.abs z)).
  { pose proof (dec_aux_parse 63 (Z.to_N (Z.abs z)) "" 0) as P.
    rewrite HD, app_nil_r in P. rewrite P; [cbn; f_equal; lia|].
    apply N2Z.inj_lt. rewrite Z2N.id by lia. rewrite N2Z.inj_pow. exact Hz. }
  remember (dec_aux 64 (Z.to_N (Z.abs z)) "") as ds eqn:Hds; clear Hds.
  cbn [list_ascii_of_string] in HD. rewrite app_nil_r in HD.
  destruct D as [|d D']; [contradiction|].
  pose proof (Forall_inv Hall) as Hd.
  destruct (List.exists_last (l:=d :: D') ltac:(discriminate)) as (Dh & dl & Hlast).
  assert (Hdl : is_digit dl)
    by (rewrite List.Forall_forall in Hall; apply Hall; rewrite Hlast; apply in_or_app; right; left; reflexivity).
  destruct (z <? 0) eqn:Hneg.
  - replace (list_ascii_of_string ("-" +:+ ds)) with ("-"%char :: list_ascii_of_string ds)
      by reflexivity.
    rewrite HD.
    change (drop_spaces ("-"%char :: d :: D')) with ("-"%char :: d :: D').
    replace (rev ("-"%char :: d :: D')) with (rev (d :: D') ++ ["-"%char]) by reflexivity.
    rewrite Hlast, rev_app_distr. cbn [rev app].
    rewrite (drop_spaces_digit dl _ Hdl).
    replace (dl :: rev Dh ++ ["-"%char]) with (rev ("-"%char :: Dh ++ [dl]))
      by (cbn; rewrite rev_app_distr; reflexivity).
    rewrite rev_involutive, <- Hlast.
    cbn [Ascii.eqb Bool.eqb andb]. rewrite Hp. cbn. f_equal. lia.
  - replace (list_ascii_of_string ("" +:+ ds)) with (list_ascii_of_string ds) by reflexivity.
    rewrite HD. rewrite (drop_spaces_digit d _ Hd).
    rewrite Hlast, rev_app_distr. cbn [rev app].
    rewrite (drop_spaces_digit dl _ Hdl).
    replace (dl :: rev Dh) with (rev (Dh ++ [dl])) by (rewrite rev_app_distr; reflexivity).
    rewrite rev_involutive, <- Hlast.
    assert (Hm : Ascii.eqb d "-" = false /\ Ascii.eqb d "+" = false).
    { unfold is_digit, digit_value in Hd.
      split; apply Ascii.eqb_neq; intros ->; apply Hd; reflexivity. }
    destruct Hm as [-> ->]. rewrite Hp. f_equal. lia.
Qed.

Lemma int_reads_back_str_witness :
  Z.abs 18446744073709551615 < 10 ^ 64 /\
  py_int (JStr (dec_string 18446744073709551615)) = inr 18446744073709551615.
Proof.
  assert (H : Z.abs 18446744073709551615 < 10 ^ 64) by (vm_compute; reflexivity).
  split; [exact H|].
  exact (int_reads_back_str 18446744073709551615 H).
Defined.
